(** * Timeline layers panel (fluster_editor frontend)

    Shallow embedding of
    [fluster_editor/frontend/src/app/bottom_pane/timeline/layers.tsx]:
    the [LayerProps] interface and the two function components [Layers]
    and [Layer], together with the small part of the React runtime they
    run on (element trees produced by JSX, and delivery of user events
    to the handlers bound in a rendered tree). *)

From stdpp Require Import base option list strings gmap.

Set Default Proof Using "Type".

(** ** JavaScript effects

    A component is a JavaScript function: it runs against the heap, may
    call functions it was handed and may throw.  [Eff] threads the heap,
    records every invocation of the visibility callback and carries the
    completion (normal or abrupt). *)

Section Effects.

(** [FrameData] is imported from [../../types/timeline]; the component
    never looks inside a frame, so the type stays abstract.  [Outside]
    is whatever else the caller's code can reach (the timeline store the
    callback writes to); nothing in [layers.tsx] refers to it. *)
Context {FrameData Outside : Type}.

(** Arrays are heap objects handed around by reference. *)
Definition loc := positive.

Record World := mkWorld {
  arrays : gmap loc (list FrameData);
  outside : Outside
}.

Inductive Exn :=
| TypeError (msg : string).

Inductive Completion (A : Type) :=
| Normal (a : A)
| Throw (e : Exn).
Global Arguments Normal {A} a.
Global Arguments Throw {A} e.

Record Outcome (A : Type) := mkOutcome {
  completion : Completion A;
  world : World;
  calls : list bool  (* arguments of the callback invocations, in order *)
}.
Global Arguments mkOutcome {A} _ _ _.
Global Arguments completion {A} _.
Global Arguments world {A} _.
Global Arguments calls {A} _.

Definition Eff (A : Type) := World -> Outcome A.

Definition ret {A} (a : A) : Eff A :=
  fun w => mkOutcome (Normal a) w [].

Definition throw {A} (e : Exn) : Eff A :=
  fun w => mkOutcome (Throw e) w [].

Definition bind {A B} (m : Eff A) (k : A -> Eff B) : Eff B :=
  fun w =>
    let r := m w in
    match completion r with
    | Normal a =>
        let r' := k a (world r) in
        mkOutcome (completion r') (world r') (calls r ++ calls r')
    | Throw e => mkOutcome (Throw e) (world r) (calls r)
    end.

End Effects.

Declare Scope eff_scope.
Delimit Scope eff_scope with eff.
Bind Scope eff_scope with Eff.
Notation "x <- m ;; k" := (bind m (fun x => k))
  (at level 100, m at next level, right associativity) : eff_scope.
Local Open Scope eff_scope.

Section Timeline.

Context {FrameData Outside : Type}.

#[local] Abbreviation World := (@World FrameData Outside).
#[local] Abbreviation Eff := (@Eff FrameData Outside).

(** The caller's [(visibile: boolean) => void]: an arbitrary function
    of the caller, free to write to the heap and to throw. *)
Definition Callback := bool -> World -> Completion unit * World.

(** A JavaScript call [f(b)].  The TypeScript declaration makes the
    property mandatory, but types are erased: a caller can still leave
    it out, and calling [undefined] throws. *)
Definition call (f : option Callback) (b : bool) : Eff unit :=
  fun w =>
    match f with
    | Some cb => let (c, w') := cb b w in mkOutcome c w' [b]
    | None => throw (TypeError "updateLayerVisibility is not a function") w
    end.

(** ** React elements and JSX *)

(** An event handler stored in a prop ([onClick={...}]). *)
Definition Handler := Eff unit.

Inductive PropValue :=
| PString (s : string)
| PBool (b : bool)
| PHandler (h : Handler).

#[warnings="-register-all"]
Inductive Element :=
| Host (tag : string) (props : list (string * PropValue)) (children : list Element)
| Text (s : string).

(** [React.createElement(type, props, ...children)]. *)
Definition createElement (tag : string) (props : list (string * PropValue))
    (children : list Element) : Element :=
  Host tag props children.

(** What may stand between a JSX opening and closing tag.  A braces
    pair holding only a comment is an empty expression and contributes
    no child; the line breaks and indentation around it are dropped by
    the JSX whitespace rule and are not represented. *)
Inductive JsxChild :=
| JsxElement (e : Element)
| JsxText (s : string)
| JsxComment (text : string).

Definition jsxChild (c : JsxChild) : list Element :=
  match c with
  | JsxElement e => [e]
  | JsxText s => [Text s]
  | JsxComment _ => []
  end.

Definition jsx (tag : string) (props : list (string * PropValue))
    (children : list JsxChild) : Element :=
  createElement tag props (flat_map jsxChild children).

Definition propsOf (e : Element) : list (string * PropValue) :=
  match e with
  | Host _ ps _ => ps
  | Text _ => []
  end.

Definition childrenOf (e : Element) : list Element :=
  match e with
  | Host _ _ cs => cs
  | Text _ => []
  end.

(** ** User events

    The user acts on a node of the rendered tree.  React runs the
    handlers bound under the event's prop name on that node and then
    on each ancestor up to the root (bubbling). *)

Record UserEvent := mkEvent {
  target : list nat;   (* child indices from the root to the node *)
  handlerProp : string (* "onClick", "onChange", ... *)
}.

(** The node at [path] followed by its ancestors, innermost first. *)
Fixpoint propagation (e : Element) (path : list nat) (above : list Element)
    : option (list Element) :=
  match path with
  | [] => Some (e :: above)
  | i :: rest =>
      match childrenOf e !! i with
      | Some c => propagation c rest (e :: above)
      | None => None
      end
  end.

Definition listener (name : string) (prop : string * PropValue) : list Handler :=
  match prop.2 with
  | PHandler h => if String.eqb prop.1 name then [h] else []
  | _ => []
  end.

Definition listeners (name : string) (e : Element) : list Handler :=
  flat_map (listener name) (propsOf e).

Fixpoint runHandlers (hs : list Handler) : Eff unit :=
  match hs with
  | [] => ret tt
  | h :: rest => _ <- h ;; runHandlers rest
  end.

(** A path that leads to no node is an action the user cannot take. *)
Definition dispatch (root : Element) (ev : UserEvent) : Eff unit :=
  match propagation root (target ev) [] with
  | Some chain => runHandlers (flat_map (listeners (handlerProp ev)) chain)
  | None => ret tt
  end.

(** Every handler bound anywhere in a tree. *)
Fixpoint handlers (e : Element) : list Handler :=
  match e with
  | Host _ ps cs =>
      flat_map (fun p => match p.2 with PHandler h => [h] | _ => [] end) ps
      ++ flat_map handlers cs
  | Text _ => []
  end.

(** ** layers.tsx *)

Record LayerProps := mkLayerProps {
  frames : loc;               (* frames: FrameData[] *)
  layerVisibility : bool;     (* layerVisibility: boolean *)
  updateLayerVisibility : option Callback
                              (* updateLayerVisibility: (visibile: boolean) => void *)
}.

(** The sequence the caller sees behind [props.frames]. *)
Definition framesOf (props : LayerProps) (w : World) : option (list FrameData) :=
  arrays w !! frames props.

Definition Layers : Eff Element :=
  ret (jsx "div" [] []).

Definition Layer (props : LayerProps) : Eff Element :=
  let frames := frames props in
  let layerVisibility := layerVisibility props in
  ret
    (jsx "div" []
       [ JsxElement (jsx "div" [] [ JsxComment "label, visibility" ]);
         JsxElement (jsx "div" [] [ JsxComment "render frames in layer" ]) ]).

(** The two regions of a rendered layer: the first inner [div] is the
    place of the label and the visibility control, the second the
    place of the frames. *)
Definition visibilityRegion (out : Element) : option Element :=
  childrenOf out !! 0.

Definition frameRegion (out : Element) : option Element :=
  childrenOf out !! 1.

Definition frameEntries (out : Element) : list Element :=
  from_option childrenOf [] (frameRegion out).

(** Rendering a layer and then delivering a user event to what was
    rendered. *)
Definition renderThenAct (props : LayerProps) (ev : UserEvent) : Eff unit :=
  out <- Layer props ;; dispatch out ev.

(** A session: the user events of [evs] delivered one after the other
    to the same mounted tree.  A handler that throws ends the session. *)
Fixpoint dispatchAll (root : Element) (evs : list UserEvent) : Eff unit :=
  match evs with
  | [] => ret tt
  | ev :: rest => _ <- dispatch root ev ;; dispatchAll root rest
  end.

End Timeline.

(** * Concrete instances

    Frames are numbered, the outside world is empty, and the caller's
    callback returns without doing anything. *)

Definition sampleWorld : @World nat unit :=
  mkWorld {[ 1%positive := [10; 20; 30]; 2%positive := [] ]} tt.

Definition sampleCallback : @Callback nat unit :=
  fun _ w => (Normal tt, w).

Definition sampleProps (visible : bool) : @LayerProps nat unit :=
  mkLayerProps 1%positive visible (Some sampleCallback).

Definition emptyProps (visible : bool) : @LayerProps nat unit :=
  mkLayerProps 2%positive visible (Some sampleCallback).

(** * Properties *)

Section Properties.

Context {FrameData Outside : Type}.

#[local] Abbreviation World := (@World FrameData Outside).
#[local] Abbreviation Eff := (@Eff FrameData Outside).
#[local] Abbreviation Element := (@Element FrameData Outside).
#[local] Abbreviation Handler := (@Handler FrameData Outside).
#[local] Abbreviation Callback := (@Callback FrameData Outside).
#[local] Abbreviation LayerProps := (@LayerProps FrameData Outside).

(** ** The effect monad *)

Lemma call_some (cb : Callback) (b : bool) (w : World) :
  call (Some cb) b w = mkOutcome (cb b w).1 (cb b w).2 [b].
Proof. unfold call. by destruct (cb b w). Qed.

(** ** Event delivery *)

Lemma runHandlers_singleton (h : Handler) (w : World) :
  runHandlers [h] w = h w.
Proof.
  unfold runHandlers, bind, ret.
  destruct (h w) as [[[]|e] w' cs]; simpl; by rewrite ?app_nil_r.
Qed.

(** A handler bound on the node the user acts on runs, and what it does
    is what the event does. *)
Lemma dispatch_bound_handler (tag name : string) (h : Handler) (w : World) :
  dispatch (createElement tag [(name, PHandler h)] []) (mkEvent [] name) w = h w.
Proof.
  unfold dispatch; simpl. unfold listeners, listener; simpl.
  rewrite String.eqb_refl; simpl. apply runHandlers_singleton.
Qed.

(** A control whose handler passes [b] to the callback relays exactly
    that when the callback is there, and throws when it is missing. *)
Lemma dispatch_relays_call (f : option Callback) (b : bool) (w : World) :
  let r := dispatch (createElement "button" [("onClick", PHandler (call f b))] [])
             (mkEvent [] "onClick") w in
  match f with
  | Some _ => calls r = [b]
  | None => exists e, completion r = Throw e
  end.
Proof.
  simpl. rewrite dispatch_bound_handler. destruct f as [cb|].
  - by rewrite call_some.
  - by eexists.
Qed.

Lemma handlers_children (e c : Element) (i : nat) :
  handlers e = [] -> childrenOf e !! i = Some c -> handlers c = [].
Proof.
  destruct e as [tag ps cs|s]; simpl; [|done].
  intros H Hc. apply app_eq_nil in H as [_ H].
  revert i Hc. induction cs as [|c' cs IH]; intros [|i] Hc; simplify_eq/=.
  - by apply app_eq_nil in H as [H _].
  - apply app_eq_nil in H as [_ H]. by eapply IH.
Qed.

Lemma handlers_listeners (name : string) (e : Element) :
  handlers e = [] -> listeners name e = [].
Proof.
  destruct e as [tag ps cs|s]; simpl; [|done].
  intros H. apply app_eq_nil in H as [H _]. unfold listeners; simpl.
  induction ps as [|[k v] ps IH]; simpl in *; [done|].
  apply app_eq_nil in H as [Hv H]. rewrite (IH H), app_nil_r.
  unfold listener; simpl. by destruct v.
Qed.

Lemma propagation_inert (path : list nat) :
  forall (e : Element) (above chain : list Element),
    handlers e = [] ->
    Forall (fun x => handlers x = []) above ->
    propagation e path above = Some chain ->
    Forall (fun x => handlers x = []) chain.
Proof.
  induction path as [|i path IH]; intros e above chain He Habove; simpl.
  - intros [= <-]. by constructor.
  - destruct (childrenOf e !! i) as [c|] eqn:Hc; [|done].
    apply IH; [by eapply handlers_children | by constructor].
Qed.

(** A tree that binds no handler does nothing on any user event. *)
Lemma dispatch_inert (root : Element) (ev : UserEvent) (w : World) :
  handlers root = [] -> dispatch root ev w = mkOutcome (Normal tt) w [].
Proof.
  intros Hroot. unfold dispatch.
  destruct (propagation root (target ev) []) as [chain|] eqn:Hp; [|done].
  apply propagation_inert in Hp; [|done|constructor].
  replace (flat_map (listeners (handlerProp ev)) chain) with (@nil Handler); [done|].
  induction Hp as [|x chain Hx _ IH]; simpl; [done|].
  by rewrite (handlers_listeners _ _ Hx), <- IH.
Qed.

(** ** The components *)

Lemma Layers_outcome (w : World) :
  Layers w = mkOutcome (Normal (Host "div" [] [])) w [].
Proof. reflexivity. Qed.

Lemma Layer_outcome (props : LayerProps) (w : World) :
  Layer props w
  = mkOutcome (Normal (Host "div" [] [Host "div" [] []; Host "div" [] []])) w [].
Proof. reflexivity. Qed.

Lemma renderThenAct_outcome (props : LayerProps) (ev : UserEvent) (w : World) :
  renderThenAct props ev w = mkOutcome (Normal tt) w [].
Proof.
  unfold renderThenAct, bind. rewrite Layer_outcome; simpl.
  by rewrite dispatch_inert.
Qed.

(** C1 (as the code has it).  [Layer] renders no visibility indicator:
    the region meant for the label and the visibility control is an
    empty [div], and whatever is read off the output as an indicator
    has the same value for [layerVisibility = true] and
    [layerVisibility = false]; the frames, the callback and the heap do
    not influence it either. *)
Theorem Layer_no_visibility_indicator {A : Type} (indicator : Element -> A)
    (props props' : LayerProps) (w w' : World) :
  exists out out',
    completion (Layer props w) = Normal out /\
    completion (Layer props' w') = Normal out' /\
    visibilityRegion out = Some (Host "div" [] []) /\
    indicator out = indicator out'.
Proof. do 2 eexists. by rewrite !Layer_outcome. Qed.

(** C2 (as the code has it).  The rendered layer binds no event handler,
    so no user action on it, whichever node and event it addresses,
    reaches [updateLayerVisibility]: the action completes normally with
    zero invocations of the callback, whatever [layerVisibility] is. *)
Theorem Layer_no_toggle_relay (props : LayerProps) (ev : UserEvent) (w : World) :
  completion (renderThenAct props ev w) = Normal tt /\
  calls (renderThenAct props ev w) = [].
Proof. by rewrite renderThenAct_outcome. Qed.

(** C3.  Rendering is deterministic and stateless: two renders in a row
    with the same props return the same element tree, and that tree is
    the one returned from any other heap as well. *)
Theorem Layer_deterministic (props : LayerProps) (w : World) :
  exists out,
    completion ((first <- Layer props ;; second <- Layer props ;; ret (first, second)) w)
    = Normal (out, out) /\
    forall w', completion (Layer props w') = Normal out.
Proof. eexists. split; [reflexivity | intros w'; by rewrite Layer_outcome]. Qed.

(** C4.  Rendering leaves the frames array as the caller handed it over:
    the heap after the render is the heap before it, so the sequence
    behind [props.frames] has the same length, order and elements. *)
Theorem Layer_preserves_frames (props : LayerProps) (w : World) :
  world (Layer props w) = w /\
  framesOf props (world (Layer props w)) = framesOf props w.
Proof. by rewrite Layer_outcome. Qed.

(** C5.  With an empty frames array, for either visibility value, the
    render completes normally and the frame region of the output holds
    no entry. *)
Theorem Layer_empty_frames (props : LayerProps) (w : World) :
  framesOf props w = Some [] ->
  exists out, completion (Layer props w) = Normal out /\ frameEntries out = [].
Proof. intros _. eexists. by rewrite Layer_outcome. Qed.

(** C6.  With the callback left out of the props, a user action on the
    rendered layer raises no error, calls nothing and changes nothing:
    rendering again afterwards shows the same output as before. *)
Theorem Layer_missing_callback_tolerated (fr : loc) (visible : bool)
    (ev : UserEvent) (w : World) :
  let props := mkLayerProps fr visible None in
  let acted := renderThenAct props ev w in
  completion acted = Normal tt /\
  calls acted = [] /\
  world acted = w /\
  completion (Layer props (world acted)) = completion (Layer props w).
Proof. cbv zeta. by rewrite renderThenAct_outcome. Qed.

(** C7.  Rendering is total: for every frames array, visibility value,
    callback and heap, [Layer] completes normally with an element tree
    and never throws. *)
Theorem Layer_total (props : LayerProps) (w : World) :
  exists out, completion (Layer props w) = Normal out /\
              forall e, completion (Layer props w) <> Throw e.
Proof. eexists. by rewrite Layer_outcome. Qed.

(** C8.  [Layers()] returns an empty placeholder: on every invocation
    the same [div] without props and without children, leaving the heap
    alone. *)
Theorem Layers_empty_placeholder (w w' : World) :
  completion (Layers w) = Normal (createElement "div" [] []) /\
  completion (Layers w') = completion (Layers w) /\
  world (Layers w) = w /\
  (forall out, completion (Layers w) = Normal out -> childrenOf out = []).
Proof. rewrite !Layers_outcome; simpl. repeat split. by intros out [= <-]. Qed.

(** C9.  The output of [Layer] is a constant element tree: any two props
    records, with different frames, visibility values or callbacks, on
    any two heaps, give the same tree. *)
Theorem Layer_constant (props props' : LayerProps) (w w' : World) :
  completion (Layer props w) = completion (Layer props' w') /\
  completion (Layer props w)
  = Normal (createElement "div" []
              [createElement "div" [] []; createElement "div" [] []]).
Proof. by rewrite !Layer_outcome. Qed.

(** C10.  Rendering never invokes [updateLayerVisibility]: the render
    makes zero calls, and the tree it returns binds no handler through
    which the callback could be reached later. *)
Theorem Layer_render_never_calls_back (props : LayerProps) (w : World) :
  calls (Layer props w) = [] /\
  exists out, completion (Layer props w) = Normal out /\ handlers out = [].
Proof. split; [by rewrite Layer_outcome | eexists; by rewrite Layer_outcome]. Qed.

(** ** Beyond the contract: what the placeholders never do *)

Lemma dispatchAll_inert (root : Element) (evs : list UserEvent) (w : World) :
  handlers root = [] -> dispatchAll root evs w = mkOutcome (Normal tt) w [].
Proof.
  intros Hroot. induction evs as [|ev evs IH]; simpl; [done|].
  unfold bind. rewrite (dispatch_inert _ _ _ Hroot); simpl. by rewrite IH.
Qed.

(** X1.  The placeholder returned by [Layers()] is inert: whatever user
    event is delivered to it, on whatever node, the event completes
    normally, no callback is invoked and the heap is left as it was. *)
Theorem Layers_inert (ev : UserEvent) (w : World) :
  (out <- Layers ;; dispatch out ev) w = mkOutcome (Normal tt) w [].
Proof.
  unfold bind. rewrite Layers_outcome; simpl. by rewrite dispatch_inert.
Qed.

(** X2.  No session of user events on a rendered layer, however long,
    reaches the caller: it completes normally, makes no call to
    [updateLayerVisibility] and leaves the heap untouched, so the frames
    array is as before, also when the supplied callback is one that
    would throw or rewrite the array. *)
Theorem Layer_session_inert (props : LayerProps) (evs : list UserEvent) (w : World) :
  let session := (out <- Layer props ;; dispatchAll out evs) w in
  completion session = Normal tt /\
  calls session = [] /\
  world session = w /\
  framesOf props (world session) = framesOf props w.
Proof.
  cbv zeta. unfold bind. rewrite Layer_outcome; simpl.
  by rewrite dispatchAll_inert.
Qed.

(** X3.  The frames are never rendered: whatever sequence the frames
    array holds, the frame region of the output has no entry, so the
    number of entries matches the number of frames only when there are
    no frames. *)
Theorem Layer_frames_never_rendered (props : LayerProps) (w : World)
    (fs : list FrameData) :
  framesOf props w = Some fs ->
  exists out,
    completion (Layer props w) = Normal out /\
    frameEntries out = [] /\
    (length (frameEntries out) = length fs <-> fs = []).
Proof.
  intros _. eexists. rewrite Layer_outcome. do 2 (split; [done|]).
  simpl. by destruct fs.
Qed.

End Properties.

(** C1, as the specification states it, fails: no indicator read off the
    output can be true for [layerVisibility = true] and false for
    [layerVisibility = false], because both renders return the same
    tree. *)
Lemma Layer_visibility_echo_fails :
  ~ exists indicator : @Element nat unit -> bool,
      forall visible, exists out,
        completion (Layer (sampleProps visible) sampleWorld) = Normal out /\
        indicator out = visible.
Proof.
  intros [indicator H].
  destruct (H true) as (out1 & [= <-] & H1).
  destruct (H false) as (out2 & [= <-] & H2).
  congruence.
Qed.

(** C2, as the specification states it, fails: with
    [layerVisibility = true] and a callback supplied, no user action on
    the rendered layer makes exactly one call with [false]. *)
Lemma Layer_toggle_relay_fails :
  ~ exists ev : UserEvent,
      calls (renderThenAct (sampleProps true) ev sampleWorld)
      = [negb (layerVisibility (sampleProps true))].
Proof. intros [ev H]. by rewrite renderThenAct_outcome in H. Qed.

(** C5 at a concrete props record whose frames array is empty. *)
Lemma Layer_empty_frames_witness :
  framesOf (emptyProps true) sampleWorld = Some [] /\
  exists out,
    completion (Layer (emptyProps true) sampleWorld) = Normal out /\
    frameEntries out = [].
Proof.
  split; [reflexivity | apply (Layer_empty_frames (emptyProps true) sampleWorld); reflexivity].
Defined.

(** X3 at a props record whose frames array holds three frames. *)
Lemma Layer_frames_never_rendered_witness :
  framesOf (sampleProps true) sampleWorld = Some [10; 20; 30] /\
  exists out,
    completion (Layer (sampleProps true) sampleWorld) = Normal out /\
    frameEntries out = [] /\
    (length (frameEntries out) = length [10; 20; 30] <-> [10; 20; 30] = []).
Proof.
  split; [reflexivity |].
  apply (Layer_frames_never_rendered (sampleProps true) sampleWorld [10; 20; 30]).
  reflexivity.
Defined.
